(** * gee-gateway: the request translator of [gee_gateway/web/routes.py]

    A shallow embedding of the five POST handlers of the gateway
    ([image], [imageByMosaicCollection], [timeSeriesIndex],
    [timeSeriesIndex2], [getStats]) and the properties of the
    specification that concern them.

    Python values are an inductive type, dictionaries are finite maps,
    Python floats are binary64 numbers.  The handlers run in a small
    monad that threads the trace of observable events (calls of the
    engine client, lines written to the error log) and carries the
    exception that is in flight, if any. *)

From Stdlib Require Import ZArith String List Floats.
From stdpp Require Import gmap strings.

Local Open Scope string_scope.
Local Open Scope Z_scope.

(** ** Python values, as [request.get_json()] and the engine produce them *)

#[warnings="-register-all"]
Inductive pyval : Type :=
  | PNone
  | PBool (b : bool)
  | PInt (z : Z)
  | PFloat (f : float)
  | PStr (s : string)
  | PList (l : list pyval)
  | PDict (d : gmap string pyval).

(** Truth value of an object, as tested by [if x:] and [not x]. *)
Definition truthy (v : pyval) : bool :=
  match v with
  | PNone => false
  | PBool b => b
  | PInt z => negb (z =? 0)
  | PFloat f => negb (PrimFloat.eqb f 0%float)
  | PStr s => negb (String.eqb s EmptyString)
  | PList l => match l with [] => false | _ :: _ => true end
  | PDict d => negb (Nat.eqb (size d) 0%nat)
  end.

(** [d.get(key, default)] on a dictionary. *)
Definition dict_get (d : gmap string pyval) (key : string) (dflt : pyval) : pyval :=
  default dflt (d !! key).

(** ** Exceptions and events *)

Inductive exn : Type :=
  | GEEException (message : string)
  | AttributeError
  | TypeError
  | ValueError
  | OverflowError
  | BadRequest
  | OtherException (cls : string).

Definition is_GEEException (e : exn) : bool :=
  match e with GEEException _ => true | _ => false end.

(** The operations of the engine client ([gee/utils.py]), with the
    arguments of one call. *)
Inductive call : Type :=
  | Call_imageToMapId (imageName visParams : pyval)
  | Call_firstImageInMosaicToMapId (collectionName visParams dateFrom dateTo : pyval)
  | Call_getTimeSeriesByCollectionAndIndex
      (collectionName indexName scale geometry dateFrom dateTo : pyval)
  | Call_getTimeSeriesByIndex (indexName scale geometry : pyval)
  | Call_getStatistics (paramType paramValue : pyval).

Inductive event : Type :=
  | Invoke (c : call)
  | LogError (msg : string).

Definition call_indexName (c : call) : option pyval :=
  match c with
  | Call_getTimeSeriesByCollectionAndIndex _ i _ _ _ _ => Some i
  | Call_getTimeSeriesByIndex i _ _ => Some i
  | _ => None
  end.

Definition call_scale (c : call) : option pyval :=
  match c with
  | Call_getTimeSeriesByCollectionAndIndex _ _ s _ _ _ => Some s
  | Call_getTimeSeriesByIndex _ s _ => Some s
  | _ => None
  end.

Definition call_geometry (c : call) : option pyval :=
  match c with
  | Call_getTimeSeriesByCollectionAndIndex _ _ _ g _ _ => Some g
  | Call_getTimeSeriesByIndex _ _ g => Some g
  | _ => None
  end.

(** ** The handler monad: a trace of events and a possible exception *)

Inductive result (A : Type) : Type :=
  | Return (a : A)
  | Raise (e : exn).
Arguments Return {A} a.
Arguments Raise {A} e.

Definition M (A : Type) : Type := list event -> result A * list event.

Definition ret {A} (a : A) : M A := fun tr => (Return a, tr).

Definition raise {A} (e : exn) : M A := fun tr => (Raise e, tr).

Definition bind {A B} (m : M A) (k : A -> M B) : M B :=
  fun tr =>
    match m tr with
    | (Return a, tr') => k a tr'
    | (Raise e, tr') => (Raise e, tr')
    end.

Definition emit (ev : event) : M unit := fun tr => (Return tt, (tr ++ [ev])%list).

Definition lift {A} (r : result A) : M A := fun tr => (r, tr).

Declare Scope py_scope.
Delimit Scope py_scope with py.
Notation "x <- c ;; k" := (bind c (fun x => k))
  (at level 100, c at next level, right associativity) : py_scope.
Notation "c ;;; k" := (bind c (fun _ => k))
  (at level 100, right associativity) : py_scope.
Local Open Scope py_scope.

(** [try: body except GEEException as e: handler(e.message)] *)
Definition try_except_GEE {A} (body : M A) (handler : string -> M A) : M A :=
  fun tr =>
    match body tr with
    | (Raise (GEEException message), tr') => handler message tr'
    | r => r
    end.

Definition run {A} (m : M A) : result A * list event := m [].
Definition outcome {A} (m : M A) : result A := fst (run m).
Definition trace {A} (m : M A) : list event := snd (run m).

(** ** Builtins *)

(** [obj.get(key, default)]: only dictionaries have the method. *)
Definition get_method (obj : pyval) (key : string) (dflt : pyval) : result pyval :=
  match obj with
  | PDict d => Return (dict_get d key dflt)
  | _ => Raise AttributeError
  end.

Definition py_get (obj : pyval) (key : string) (dflt : pyval) : M pyval :=
  lift (get_method obj key dflt).

(** [float(n)] for an integer: the nearest binary64 number, and
    [OverflowError] beyond the range. *)
Definition float_of_int (z : Z) : option float :=
  let f := SF2Prim (binary_normalize prec emax z 0 false) in
  if PrimFloat.is_infinity f then None else Some f.

(** ** Requests and responses *)

Record request : Type := { get_json : result pyval }.

Record response : Type := { body : pyval; status : Z }.

(** [jsonify(values)]: the body is the JSON rendering of [values]; the
    model keeps the value itself. *)
Definition jsonify (values : pyval) : pyval := values.

Definition request_get_json (req : request) : M pyval := lift (get_json req).

Definition logger_error (message : string) : M unit := emit (LogError message).

Definition empty_dict : pyval := PDict ∅.

Definition errMsg_dict (message : string) : pyval :=
  PDict {[ "errMsg" := PStr message ]}.

Definition timeseries_dict (timeseries : pyval) : pyval :=
  PDict {[ "timeseries" := timeseries ]}.

(** A request whose body parsed to [payload]. *)
Definition json_request (payload : pyval) : request :=
  {| get_json := Return payload |}.

Inductive endpoint : Type :=
  | Route_image
  | Route_imageByMosaicCollection
  | Route_timeSeriesIndex
  | Route_timeSeriesIndex2
  | Route_getStats.

Section Gateway.

(** The engine client: what a call returns or raises.  A handler makes
    at most one call per request, so a function of the call covers
    every behaviour of the engine. *)
Variable engine : call -> result pyval.

(** [float(s)] for a string: the interpreter's parser of float
    literals, [None] where it raises [ValueError]. *)
Variable float_of_str : string -> option float.

Definition invoke (c : call) : M pyval :=
  emit (Invoke c) ;;; lift (engine c).

Definition imageToMapId (imageName visParams : pyval) : M pyval :=
  invoke (Call_imageToMapId imageName visParams).

Definition firstImageInMosaicToMapId
    (collectionName visParams dateFrom dateTo : pyval) : M pyval :=
  invoke (Call_firstImageInMosaicToMapId collectionName visParams dateFrom dateTo).

Definition getTimeSeriesByCollectionAndIndex
    (collectionName indexName scale geometry dateFrom dateTo : pyval) : M pyval :=
  invoke (Call_getTimeSeriesByCollectionAndIndex
            collectionName indexName scale geometry dateFrom dateTo).

Definition getTimeSeriesByIndex (indexName scale geometry : pyval) : M pyval :=
  invoke (Call_getTimeSeriesByIndex indexName scale geometry).

Definition getStatistics (paramType paramValue : pyval) : M pyval :=
  invoke (Call_getStatistics paramType paramValue).

(** [float(x)] *)
Definition float_value (x : pyval) : result pyval :=
  match x with
  | PFloat f => Return (PFloat f)
  | PInt z =>
      match float_of_int z with
      | Some f => Return (PFloat f)
      | None => Raise OverflowError
      end
  | PBool b => Return (PFloat (if b then 1%float else 0%float))
  | PStr s =>
      match float_of_str s with
      | Some f => Return (PFloat f)
      | None => Raise ValueError
      end
  | PNone | PList _ | PDict _ => Raise TypeError
  end.

Definition py_float (x : pyval) : M pyval := lift (float_value x).

(** The [except GEEException as e:] clause shared by the handlers. *)
Definition on_GEEException (message : string) : M pyval :=
  logger_error message ;;;
  ret (errMsg_dict message).

(** [return jsonify(values), 200] *)
Definition reply (values : pyval) : M response :=
  ret {| body := jsonify values; status := 200 |}.

(** *** [/image] *)

Definition image_try (req : request) : M pyval :=
  json <- request_get_json req ;;
  if truthy json then
    imageName <- py_get json "imageName" PNone ;;
    if truthy imageName then
      visParams <- py_get json "visParams" PNone ;;
      imageToMapId imageName visParams
    else ret empty_dict
  else ret empty_dict.

Definition image (req : request) : M response :=
  values <- try_except_GEE (image_try req) on_GEEException ;;
  reply values.

(** *** [/imageByMosaicCollection] *)

Definition imageByMosaicCollection_try (req : request) : M pyval :=
  json <- request_get_json req ;;
  if truthy json then
    collectionName <- py_get json "collectionName" PNone ;;
    if truthy collectionName then
      visParams <- py_get json "visParams" PNone ;;
      dateFrom <- py_get json "dateFrom" PNone ;;
      dateTo <- py_get json "dateTo" PNone ;;
      firstImageInMosaicToMapId collectionName visParams dateFrom dateTo
    else ret empty_dict
  else ret empty_dict.

Definition imageByMosaicCollection (req : request) : M response :=
  values <- try_except_GEE (imageByMosaicCollection_try req) on_GEEException ;;
  reply values.

(** *** [/timeSeriesIndex] *)

(** [geometry = json.get('polygon', None)], then, [if not geometry],
    [geometry = json.get('geometry', None)]: the same three lines in
    both time-series handlers. *)
Definition read_geometry (json : pyval) : M pyval :=
  geometry <- py_get json "polygon" PNone ;;
  if negb (truthy geometry) then py_get json "geometry" PNone
  else ret geometry.

Definition timeSeriesIndex_try (req : request) : M pyval :=
  json <- request_get_json req ;;
  if truthy json then
    collectionName <- py_get json "collectionNameTimeSeries" PNone ;;
    geometry <- read_geometry json ;;
    if truthy collectionName && truthy geometry then
      indexName <- py_get json "indexName" (PStr "NDVI") ;;
      scale0 <- py_get json "scale" (PInt 30) ;;
      scale <- py_float scale0 ;;
      dateFrom <- py_get json "dateFromTimeSeries" PNone ;;
      dateTo <- py_get json "dateToTimeSeries" PNone ;;
      timeseries <- getTimeSeriesByCollectionAndIndex
                      collectionName indexName scale geometry dateFrom dateTo ;;
      ret (timeseries_dict timeseries)
    else ret empty_dict
  else ret empty_dict.

Definition timeSeriesIndex (req : request) : M response :=
  values <- try_except_GEE (timeSeriesIndex_try req) on_GEEException ;;
  reply values.

(** *** [/timeSeriesIndex2] *)

Definition timeSeriesIndex2_try (req : request) : M pyval :=
  json <- request_get_json req ;;
  if truthy json then
    geometry <- read_geometry json ;;
    if truthy geometry then
      indexName <- py_get json "indexName" (PStr "NDVI") ;;
      scale0 <- py_get json "scale" (PInt 30) ;;
      scale <- py_float scale0 ;;
      timeseries <- getTimeSeriesByIndex indexName scale geometry ;;
      ret (timeseries_dict timeseries)
    else ret empty_dict
  else ret empty_dict.

Definition timeSeriesIndex2 (req : request) : M response :=
  values <- try_except_GEE (timeSeriesIndex2_try req) on_GEEException ;;
  reply values.

(** *** [/getStats]: no test of the payload or of its fields *)

Definition getStats_try (req : request) : M pyval :=
  json <- request_get_json req ;;
  paramType <- py_get json "paramType" PNone ;;
  paramValue <- py_get json "paramValue" PNone ;;
  getStatistics paramType paramValue.

Definition getStats (req : request) : M response :=
  values <- try_except_GEE (getStats_try req) on_GEEException ;;
  reply values.

(** *** The routing table, [@gee_gateway.route(path, methods=['POST'])] *)

Definition route_try (ep : endpoint) : request -> M pyval :=
  match ep with
  | Route_image => image_try
  | Route_imageByMosaicCollection => imageByMosaicCollection_try
  | Route_timeSeriesIndex => timeSeriesIndex_try
  | Route_timeSeriesIndex2 => timeSeriesIndex2_try
  | Route_getStats => getStats_try
  end.

Definition route (ep : endpoint) : request -> M response :=
  match ep with
  | Route_image => image
  | Route_imageByMosaicCollection => imageByMosaicCollection
  | Route_timeSeriesIndex => timeSeriesIndex
  | Route_timeSeriesIndex2 => timeSeriesIndex2
  | Route_getStats => getStats
  end.

(** ** A view of the handlers: decide, call, settle

    Every handler reads the payload without any effect, makes at most
    one call of the engine, and ends in the same [except] clause and
    [return].  The definitions below name these three stages; the
    lemmas [route_try_run] and [route_run] prove that the handlers above
    are their composition. *)

(** What a [try] block does once the payload is read. *)
Inductive action : Type :=
  | NoCall                   (* [values] stays [{}] *)
  | Relay (c : call)         (* [values] is what the engine returned *)
  | Timeseries (c : call).   (* [values] is [{'timeseries': ...}] *)

Definition action_call (a : action) : option call :=
  match a with
  | NoCall => None
  | Relay c | Timeseries c => Some c
  end.

(** The geometry a time-series handler works with. *)
Definition geometry_of (d : gmap string pyval) : pyval :=
  let polygon := dict_get d "polygon" PNone in
  if truthy polygon then polygon else dict_get d "geometry" PNone.

(** The test that guards the call, on an object payload. *)
Definition guard (ep : endpoint) (d : gmap string pyval) : bool :=
  match ep with
  | Route_image => truthy (dict_get d "imageName" PNone)
  | Route_imageByMosaicCollection => truthy (dict_get d "collectionName" PNone)
  | Route_timeSeriesIndex =>
      truthy (dict_get d "collectionNameTimeSeries" PNone) && truthy (geometry_of d)
  | Route_timeSeriesIndex2 => truthy (geometry_of d)
  | Route_getStats => true
  end.

Definition with_scale (d : gmap string pyval) (k : pyval -> call) : result action :=
  match float_value (dict_get d "scale" (PInt 30)) with
  | Return scale => Return (Timeseries (k scale))
  | Raise e => Raise e
  end.

(** The call made when the guard holds. *)
Definition call_of (ep : endpoint) (d : gmap string pyval) : result action :=
  match ep with
  | Route_image =>
      Return (Relay (Call_imageToMapId
                       (dict_get d "imageName" PNone) (dict_get d "visParams" PNone)))
  | Route_imageByMosaicCollection =>
      Return (Relay (Call_firstImageInMosaicToMapId
                       (dict_get d "collectionName" PNone) (dict_get d "visParams" PNone)
                       (dict_get d "dateFrom" PNone) (dict_get d "dateTo" PNone)))
  | Route_timeSeriesIndex =>
      with_scale d (fun scale =>
        Call_getTimeSeriesByCollectionAndIndex
          (dict_get d "collectionNameTimeSeries" PNone)
          (dict_get d "indexName" (PStr "NDVI")) scale (geometry_of d)
          (dict_get d "dateFromTimeSeries" PNone) (dict_get d "dateToTimeSeries" PNone))
  | Route_timeSeriesIndex2 =>
      with_scale d (fun scale =>
        Call_getTimeSeriesByIndex
          (dict_get d "indexName" (PStr "NDVI")) scale (geometry_of d))
  | Route_getStats =>
      Return (Relay (Call_getStatistics
                       (dict_get d "paramType" PNone) (dict_get d "paramValue" PNone)))
  end.

(** [/getStats] alone has no [if json:]. *)
Definition tests_payload (ep : endpoint) : bool :=
  match ep with Route_getStats => false | _ => true end.

Definition prepare (ep : endpoint) (json : pyval) : result action :=
  if tests_payload ep && negb (truthy json) then Return NoCall
  else
    match json with
    | PDict d => if guard ep d then call_of ep d else Return NoCall
    | _ => Raise AttributeError
    end.

Definition perform (a : action) : M pyval :=
  match a with
  | NoCall => ret empty_dict
  | Relay c => invoke c
  | Timeseries c => timeseries <- invoke c ;; ret (timeseries_dict timeseries)
  end.

(** The [except] clause and the [return], on the outcome of the [try]
    block. *)
Definition settle (r : result pyval * list event) : result response * list event :=
  match r with
  | (Return values, tr) => (Return {| body := values; status := 200 |}, tr)
  | (Raise (GEEException message), tr) =>
      (Return {| body := errMsg_dict message; status := 200 |},
       (tr ++ [LogError message])%list)
  | (Raise e, tr) => (Raise e, tr)
  end.

End Gateway.

(** ** Payloads and engines used as test points *)

Definition visParams_example : pyval :=
  PDict {[ "min" := PInt 0; "max" := PInt 1; "bands" := PStr "B1"; "gamma" := PInt 1 ]}.

(** [{"imageName": "X", "visParams": {...}}] *)
Definition image_payload : gmap string pyval :=
  {[ "imageName" := PStr "X"; "visParams" := visParams_example ]}.

Definition mapid_example : pyval :=
  PDict {[ "mapid" := PStr "m1"; "token" := PStr "t1" ]}.

Definition stats_example : pyval :=
  PDict {[ "maxElev" := PInt 1230; "minElev" := PInt 1230; "pop" := PInt 0 ]}.

Definition square : pyval :=
  PList [PList [PInt 0; PInt 0]; PList [PInt 1; PInt 1]].

Definition triangle : pyval :=
  PList [PList [PInt 0; PInt 0]; PList [PInt 0; PInt 1]; PList [PInt 1; PInt 0]].

(** The request of the docstring of [timeSeriesIndex]. *)
Definition documented_timeseries_payload : gmap string pyval :=
  {[ "collectionName" := PStr "LANDSAT/LC8_L1T_TOA";
     "indexName" := PStr "NDVI";
     "scale" := PInt 30;
     "geometry" := square;
     "dateFrom" := PStr "2015-01-01";
     "dateTo" := PStr "2015-12-31" ]}.

(** A request with the keys that [timeSeriesIndex] reads. *)
Definition suffixed_timeseries_payload : gmap string pyval :=
  {[ "collectionNameTimeSeries" := PStr "LANDSAT/LC8_L1T_TOA";
     "polygon" := square;
     "geometry" := triangle;
     "scale" := PStr "30";
     "dateFromTimeSeries" := PStr "2015-01-01";
     "dateToTimeSeries" := PStr "2015-12-31" ]}.



(** [{"paramType": "basin", "paramValue": [[0,0],[1,1]]}] *)
Definition stats_payload : gmap string pyval :=
  {[ "paramType" := PStr "basin"; "paramValue" := square ]}.


(** A time-series request whose [scale] is no number. *)
Definition unscaled_timeseries_payload : gmap string pyval :=
  {[ "polygon" := square; "scale" := PStr "coarse" ]}.


(** An engine that answers every call in the same way. *)
Definition engine_const (r : result pyval) : call -> result pyval :=
  fun _ => r.

(** A float parser that knows one literal. *)
Definition parse_30 (s : string) : option float :=
  if String.eqb s "30" then Some 30%float else None.

(** ** Predicates of the statements *)



(** The object has the key. *)
Definition has_key (key : string) (v : pyval) : bool :=
  match v with
  | PDict d => bool_decide (is_Some (d !! key))
  | _ => false
  end.

Definition is_timeseries_route (ep : endpoint) : bool :=
  match ep with
  | Route_timeSeriesIndex | Route_timeSeriesIndex2 => true
  | _ => false
  end.

(** The calls of the engine in a trace, in order. *)
Definition engine_calls (tr : list event) : list call :=
  omap (fun ev => match ev with Invoke c => Some c | LogError _ => None end) tr.

(** The handler that makes a given call. *)
Definition call_route (c : call) : endpoint :=
  match c with
  | Call_imageToMapId _ _ => Route_image
  | Call_firstImageInMosaicToMapId _ _ _ _ => Route_imageByMosaicCollection
  | Call_getTimeSeriesByCollectionAndIndex _ _ _ _ _ _ => Route_timeSeriesIndex
  | Call_getTimeSeriesByIndex _ _ _ => Route_timeSeriesIndex2
  | Call_getStatistics _ _ => Route_getStats
  end.

(** The keys that appear in the [json.get] calls of a handler. *)
Definition fields_read (ep : endpoint) : list string :=
  match ep with
  | Route_image => ["imageName"; "visParams"]
  | Route_imageByMosaicCollection =>
      ["collectionName"; "visParams"; "dateFrom"; "dateTo"]
  | Route_timeSeriesIndex =>
      ["collectionNameTimeSeries"; "polygon"; "geometry"; "indexName"; "scale";
       "dateFromTimeSeries"; "dateToTimeSeries"]
  | Route_timeSeriesIndex2 => ["polygon"; "geometry"; "indexName"; "scale"]
  | Route_getStats => ["paramType"; "paramValue"]
  end.

(** The value is a JSON object. *)
Definition is_object (v : pyval) : bool :=
  match v with PDict _ => true | _ => false end.

(** [{"collectionName": ..., "dateFrom": ...}]: no [visParams], no [dateTo]. *)
Definition mosaic_payload : gmap string pyval :=
  {[ "collectionName" := PStr "LANDSAT/LC8_L1T_TOA"; "dateFrom" := PStr "2015-01-01" ]}.

(** The image request with a field that no handler reads. *)
Definition image_payload_with_note : gmap string pyval :=
  <["note" := PStr "draft"]> image_payload.

(** A time-series request with [indexName] set to [null]. *)
Definition null_index_payload : gmap string pyval :=
  {[ "polygon" := square; "indexName" := PNone ]}.

(** A time-series request with [scale] set to [null]. *)
Definition null_scale_payload : gmap string pyval :=
  {[ "polygon" := square; "scale" := PNone ]}.

(** [{"paramType": "", "paramValue": [[0,0],[1,1]]}] *)
Definition stats_payload_blank_type : gmap string pyval :=
  {[ "paramType" := PStr EmptyString; "paramValue" := square ]}.

(** ** Proof steps shared by the lemmas *)

Ltac unfold_monad :=
  unfold py_float, py_get, request_get_json, logger_error, reply, jsonify,
    try_except_GEE, bind, ret, raise, emit, lift, run, outcome, trace in *.

Ltac case_truthy :=
  match goal with
  | |- context [truthy ?v] => destruct (truthy v) eqn:?
  end.

Ltac use_truthy :=
  repeat match goal with
         | H : truthy _ = _ |- _ => rewrite H; simpl
         end.

(** * The handlers are decide, call, settle *)

Section Properties.

Variable engine : call -> result pyval.
Variable float_of_str : string -> option float.

Abbreviation handle := (route engine float_of_str).
Abbreviation decide_call := (prepare float_of_str).

Lemma invoke_run (c : call) (tr : list event) :
  invoke engine c tr = (engine c, (tr ++ [Invoke c])%list).
Proof. unfold invoke. unfold_monad. reflexivity. Qed.

Lemma perform_run (a : action) :
  run (perform engine a) =
    match a with
    | NoCall => (Return empty_dict, [])
    | Relay c => (engine c, [Invoke c])
    | Timeseries c =>
        (match engine c with
         | Return v => Return (timeseries_dict v)
         | Raise e => Raise e
         end, [Invoke c])
    end.
Proof.
  destruct a as [|c|c]; unfold run; simpl; try reflexivity.
  unfold bind. rewrite invoke_run. simpl. destruct (engine c); reflexivity.
Qed.

Lemma settle_run (block : M pyval) :
  run (values <- try_except_GEE block on_GEEException ;; reply values)
  = settle (run block).
Proof.
  unfold on_GEEException. unfold_monad.
  destruct (block []) as [[v|e] tr]; simpl; [reflexivity|].
  destruct e; reflexivity.
Qed.

Lemma route_run (ep : endpoint) (req : request) :
  run (route engine float_of_str ep req)
  = settle (run (route_try engine float_of_str ep req)).
Proof. destruct ep; apply settle_run. Qed.

Lemma route_try_run (ep : endpoint) (req : request) :
  run (route_try engine float_of_str ep req) =
    match get_json req with
    | Return json =>
        match prepare float_of_str ep json with
        | Return a => run (perform engine a)
        | Raise e => (Raise e, [])
        end
    | Raise e => (Raise e, [])
    end.
Proof.
  destruct req as [[json|e]]; [|destruct ep; reflexivity].
  unfold prepare, guard, call_of, with_scale, geometry_of.
  destruct ep; simpl;
    unfold image_try, imageByMosaicCollection_try, timeSeriesIndex_try,
      timeSeriesIndex2_try, getStats_try, read_geometry;
    unfold_monad; simpl.
  1-4: destruct (truthy json); simpl; [|reflexivity].
  all: destruct json as [| | | | | |d]; try reflexivity; simpl.
  all: repeat (case_truthy; simpl; use_truthy); try reflexivity.
  all: destruct (float_value _ _); simpl; use_truthy; reflexivity.
Qed.


(** ** What a run of a handler can look like *)

Lemma handle_run (ep : endpoint) (req : request) :
  run (handle ep req) =
    settle match get_json req with
           | Return json =>
               match decide_call ep json with
               | Return a => run (perform engine a)
               | Raise e => (Raise e, [])
               end
           | Raise e => (Raise e, [])
           end.
Proof. rewrite route_run, route_try_run. reflexivity. Qed.

Lemma settle_invoked (p : result pyval * list event) (c : call) :
  Invoke c ∈ snd (settle p) -> Invoke c ∈ snd p.
Proof.
  destruct p as [[v|e] tr]; simpl; [tauto|].
  destruct e; simpl; try tauto.
  rewrite elem_of_app, list_elem_of_singleton. intros [H|H]; [exact H|discriminate].
Qed.

(** A call seen in the trace is the call decided from the payload, and
    it is the only event before the [except] clause. *)
Lemma invoked_inv (ep : endpoint) (req : request) (c : call) :
  Invoke c ∈ trace (handle ep req) ->
  exists json a,
    get_json req = Return json /\ decide_call ep json = Return a /\
    action_call a = Some c /\
    run (handle ep req) = settle (run (perform engine a)).
Proof.
  intros Hin. pose proof (handle_run ep req) as Hrun.
  unfold trace in Hin. rewrite Hrun in Hin.
  destruct (get_json req) as [json|e];
    [destruct (decide_call ep json) as [a|e] eqn:Ha|];
    apply settle_invoked in Hin; [|inversion Hin..].
  exists json, a. split; [reflexivity|]. split; [exact Ha|].
  split; [|exact Hrun]. clear Hrun.
  rewrite perform_run in Hin.
  destruct a as [|c'|c']; simpl in Hin;
    [inversion Hin | apply list_elem_of_singleton in Hin..]; simpl; congruence.
Qed.

Lemma float_value_float (x v : pyval) :
  float_value float_of_str x = Return v -> exists f, v = PFloat f.
Proof.
  destruct x; simpl; try discriminate.
  - intros [= <-]. eauto.
  - destruct (float_of_int z); [intros [= <-]; eauto | discriminate].
  - intros [= <-]. eauto.
  - destruct (float_of_str s); [intros [= <-]; eauto | discriminate].
Qed.

Lemma float_value_raise (x : pyval) (e : exn) :
  float_value float_of_str x = Raise e ->
  e = TypeError \/ e = ValueError \/ e = OverflowError.
Proof.
  destruct x; simpl; try discriminate; try (intros [= <-]; tauto).
  - destruct (float_of_int z); [discriminate | intros [= <-]; tauto].
  - destruct (float_of_str s); [discriminate | intros [= <-]; tauto].
Qed.

Lemma empty_payload_guard (ep : endpoint) :
  tests_payload ep = true -> guard ep ∅ = false.
Proof. destruct ep; simpl; try discriminate; reflexivity. Qed.

(** On an object payload the decision is the guard alone: where the
    handler tests the payload, an empty object fails the guard too. *)
Lemma decide_call_dict (ep : endpoint) (d : gmap string pyval) :
  decide_call ep (PDict d) =
    if guard ep d then call_of float_of_str ep d else Return NoCall.
Proof.
  unfold prepare. destruct (tests_payload ep) eqn:Ht; simpl; [|reflexivity].
  destruct (Nat.eqb (size d) 0) eqn:Hs; simpl; [|reflexivity].
  apply Nat.eqb_eq, map_size_empty_iff in Hs. subst d.
  rewrite empty_payload_guard by exact Ht. reflexivity.
Qed.

Lemma handle_dict_run (ep : endpoint) (d : gmap string pyval) :
  run (handle ep (json_request (PDict d))) =
    settle (if guard ep d
            then match call_of float_of_str ep d with
                 | Return a => run (perform engine a)
                 | Raise e => (Raise e, [])
                 end
            else (Return empty_dict, [])).
Proof.
  rewrite handle_run. simpl get_json. cbv iota. rewrite decide_call_dict.
  destruct (guard ep d); reflexivity.
Qed.

Lemma invoked_dict_inv (ep : endpoint) (d : gmap string pyval) (c : call) :
  Invoke c ∈ trace (handle ep (json_request (PDict d))) ->
  guard ep d = true /\
  exists a, call_of float_of_str ep d = Return a /\ action_call a = Some c.
Proof.
  intros Hin. apply invoked_inv in Hin as (json & a & Hj & Ha & Hc & _).
  simpl in Hj. injection Hj as <-. rewrite decide_call_dict in Ha.
  destruct (guard ep d); [eauto|].
  injection Ha as <-. discriminate.
Qed.

(** Conversely, a payload that passes the guard and yields a call has
    that call in its trace. *)
Lemma guarded_call_invoked (ep : endpoint) (d : gmap string pyval) (a : action) (c : call) :
  guard ep d = true ->
  call_of float_of_str ep d = Return a ->
  action_call a = Some c ->
  Invoke c ∈ trace (handle ep (json_request (PDict d))).
Proof.
  intros Hg Ha Hc. unfold trace. rewrite handle_dict_run, Hg, Ha, perform_run.
  destruct a as [|c'|c']; simpl in Hc; try discriminate; injection Hc as ->;
    destruct (engine c) as [v|[]]; simpl; rewrite ?elem_of_cons; tauto.
Qed.

(** The arguments of the call of a time-series handler. *)
Lemma timeseries_call_inv (ep : endpoint) (d : gmap string pyval) (c : call) :
  is_timeseries_route ep = true ->
  Invoke c ∈ trace (handle ep (json_request (PDict d))) ->
  call_indexName c = Some (dict_get d "indexName" (PStr "NDVI")) /\
  call_geometry c = Some (geometry_of d) /\
  exists scale,
    float_value float_of_str (dict_get d "scale" (PInt 30)) = Return scale /\
    call_scale c = Some scale.
Proof.
  intros Hep Hin. apply invoked_dict_inv in Hin as (_ & a & Ha & Hc).
  destruct ep; try discriminate; simpl in Ha; unfold with_scale in Ha;
    destruct (float_value _ _) as [scale|e] eqn:Hs; try discriminate;
    injection Ha as <-; injection Hc as <-; simpl; eauto.
Qed.


Lemma dict_get_present (d : gmap string pyval) (key : string) (dflt v : pyval) :
  d !! key = Some v -> dict_get d key dflt = v.
Proof. unfold dict_get. intros ->. reflexivity. Qed.



(** ** Guards *)




(** C2.  On every endpoint, when the call of the engine made for the
    request raises [GEEException] with message [msg], the response is
    the body [{"errMsg": msg}] with status 200; the message is logged,
    and nothing else happens. *)
Theorem C2_domain_error_body (ep : endpoint) (req : request) (c : call) (msg : string) :
  Invoke c ∈ trace (handle ep req) ->
  engine c = Raise (GEEException msg) ->
  run (handle ep req)
  = (Return {| body := errMsg_dict msg; status := 200 |}, [Invoke c; LogError msg]).
Proof.
  intros Hin Hc. apply invoked_inv in Hin as (json & a & _ & _ & Ha & ->).
  rewrite perform_run.
  destruct a as [|c'|c']; simpl in Ha; try discriminate;
    injection Ha as ->; rewrite Hc; reflexivity.
Qed.

(** C3 (failing input).  [timeSeriesIndex] does not read the fields
    [collectionName], [dateFrom] and [dateTo] that its docstring
    documents: on the request of the docstring the engine is not called
    and the body is [{}]. *)
Theorem C3_documented_fields_not_read :
  run (timeSeriesIndex engine float_of_str
         (json_request (PDict documented_timeseries_payload)))
  = (Return {| body := empty_dict; status := 200 |}, []).
Proof. vm_compute. reflexivity. Qed.

(** C4.  An exception that is not a [GEEException] is not caught: the
    handler ends with that exception, whether it comes from
    [request.get_json()], from the call of the engine, or from any
    other step of the [try] block. *)
Theorem C4_other_exceptions_propagate (ep : endpoint) (req : request) (e : exn) :
  is_GEEException e = false ->
  (get_json req = Raise e -> run (handle ep req) = (Raise e, [])) /\
  (forall c, Invoke c ∈ trace (handle ep req) -> engine c = Raise e ->
             run (handle ep req) = (Raise e, [Invoke c])) /\
  (forall tr, run (route_try engine float_of_str ep req) = (Raise e, tr) ->
              run (handle ep req) = (Raise e, tr)).
Proof.
  intros He. repeat split.
  - intros Hj. rewrite handle_run, Hj. destruct e; try discriminate; reflexivity.
  - intros c Hin Hc. apply invoked_inv in Hin as (json & a & _ & _ & Ha & ->).
    rewrite perform_run.
    destruct a as [|c'|c']; simpl in Ha; try discriminate;
      injection Ha as ->; rewrite Hc; destruct e; try discriminate; reflexivity.
  - intros tr Htry. rewrite route_run, Htry.
    destruct e; try discriminate; reflexivity.
Qed.


Lemma truthy_insert (d : gmap string pyval) (key : string) (v : pyval) :
  truthy (PDict (<[key:=v]> d)) = true.
Proof.
  simpl. destruct (Nat.eqb _ _) eqn:Hs; [|reflexivity].
  apply Nat.eqb_eq, map_size_empty_iff in Hs.
  exfalso. exact (insert_non_empty _ _ _ Hs).
Qed.




(** C7.  [POST /image] with
    [{"imageName":"X","visParams":{"min":0,"max":1,"bands":"B1","gamma":1}}]
    calls [imageToMapId("X", visParams)] and relays what it returns as
    the whole body, with status 200; so [{"mapid":"m1","token":"t1"}]
    from the engine is the body of the response. *)
Theorem C7_image_example (v : pyval) :
  engine (Call_imageToMapId (PStr "X") visParams_example) = Return v ->
  run (image engine (json_request (PDict image_payload)))
  = (Return {| body := v; status := 200 |},
     [Invoke (Call_imageToMapId (PStr "X") visParams_example)]).
Proof.
  intros Hv. unfold image. rewrite settle_run.
  assert (Htry : run (image_try engine (json_request (PDict image_payload)))
                 = (engine (Call_imageToMapId (PStr "X") visParams_example),
                    [Invoke (Call_imageToMapId (PStr "X") visParams_example)]))
    by reflexivity.
  rewrite Htry, Hv. reflexivity.
Qed.

Lemma has_key_errMsg_dict (msg : string) : has_key "errMsg" (errMsg_dict msg) = true.
Proof. reflexivity. Qed.

Lemma has_key_timeseries_dict (v : pyval) : has_key "errMsg" (timeseries_dict v) = false.
Proof. reflexivity. Qed.





(** C10.  On [/timeSeriesIndex] and [/timeSeriesIndex2], the [scale] of
    the call is [float(json.get('scale', 30))], a float; when that
    coercion fails, the exception ([TypeError], [ValueError] or
    [OverflowError]) is not caught: a request that passes the guard ends
    with it, without a call and without an [errMsg] body (a request
    that fails the guard is answered [{}] before the coercion). *)
Theorem C10_scale_coercion (ep : endpoint) (d : gmap string pyval) :
  is_timeseries_route ep = true ->
  (forall c, Invoke c ∈ trace (handle ep (json_request (PDict d))) ->
     exists f, float_value float_of_str (dict_get d "scale" (PInt 30)) = Return (PFloat f)
               /\ call_scale c = Some (PFloat f)) /\
  (forall e, float_value float_of_str (dict_get d "scale" (PInt 30)) = Raise e ->
     is_GEEException e = false /\
     run (handle ep (json_request (PDict d)))
     = if guard ep d then (Raise e, [])
       else (Return {| body := empty_dict; status := 200 |}, [])).
Proof.
  intros Hep. split.
  - intros c Hin.
    destruct (timeseries_call_inv ep d c Hep Hin) as (_ & _ & scale & Hs & Hcs).
    destruct (float_value_float _ _ Hs) as [f ->]. eauto.
  - intros e He.
    assert (Hne : is_GEEException e = false).
    { destruct (float_value_raise _ _ He) as [->|[->| ->]]; reflexivity. }
    split; [exact Hne|].
    rewrite handle_dict_run. destruct (guard ep d); [|reflexivity].
    destruct ep; try discriminate; simpl; unfold with_scale; rewrite He;
      destruct e; try discriminate; reflexivity.
Qed.
End Properties.

(** * Test points *)

(** On the request read with the suffixed keys the engine is called,
    with the polygon, the parsed scale and the suffixed dates. *)
Example timeSeriesIndex_reads_suffixed_fields :
  run (timeSeriesIndex (engine_const (Return (PList []))) parse_30
         (json_request (PDict suffixed_timeseries_payload)))
  = (Return {| body := timeseries_dict (PList []); status := 200 |},
     [Invoke (Call_getTimeSeriesByCollectionAndIndex
                (PStr "LANDSAT/LC8_L1T_TOA") (PStr "NDVI") (PFloat 30%float) square
                (PStr "2015-01-01") (PStr "2015-12-31"))]).
Proof. vm_compute. reflexivity. Qed.



(** [/getStats] when the engine raises [GEEException("bad polygon")]. *)
Lemma C2_domain_error_body_witness :
  Invoke (Call_getStatistics (PStr "basin") square)
    ∈ trace (route (engine_const (Raise (GEEException "bad polygon"))) parse_30
               Route_getStats (json_request (PDict stats_payload))) /\
  engine_const (Raise (GEEException "bad polygon"))
    (Call_getStatistics (PStr "basin") square) = Raise (GEEException "bad polygon") /\
  run (route (engine_const (Raise (GEEException "bad polygon"))) parse_30
         Route_getStats (json_request (PDict stats_payload)))
  = (Return {| body := errMsg_dict "bad polygon"; status := 200 |},
     [Invoke (Call_getStatistics (PStr "basin") square); LogError "bad polygon"]).
Proof.
  assert (Hin : Invoke (Call_getStatistics (PStr "basin") square)
    ∈ trace (route (engine_const (Raise (GEEException "bad polygon"))) parse_30
               Route_getStats (json_request (PDict stats_payload))))
    by (vm_compute; constructor).
  split; [exact Hin|]. split; [reflexivity|].
  exact (C2_domain_error_body _ parse_30 Route_getStats _ _ "bad polygon" Hin eq_refl).
Defined.

(** [/image] when the engine raises an exception of another class. *)
Lemma C4_other_exceptions_propagate_witness :
  is_GEEException (OtherException "EEException") = false /\
  Invoke (Call_imageToMapId (PStr "X") visParams_example)
    ∈ trace (route (engine_const (Raise (OtherException "EEException"))) parse_30
               Route_image (json_request (PDict image_payload))) /\
  run (route (engine_const (Raise (OtherException "EEException"))) parse_30
         Route_image (json_request (PDict image_payload)))
  = (Raise (OtherException "EEException"),
     [Invoke (Call_imageToMapId (PStr "X") visParams_example)]).
Proof.
  assert (Hin : Invoke (Call_imageToMapId (PStr "X") visParams_example)
    ∈ trace (route (engine_const (Raise (OtherException "EEException"))) parse_30
               Route_image (json_request (PDict image_payload))))
    by (vm_compute; constructor).
  split; [reflexivity|]. split; [exact Hin|].
  exact (proj1 (proj2 (C4_other_exceptions_propagate
                         (engine_const (Raise (OtherException "EEException"))) parse_30
                         Route_image (json_request (PDict image_payload))
                         (OtherException "EEException") eq_refl))
           _ Hin eq_refl).
Defined.



(** The engine that returns [{"mapid":"m1","token":"t1"}]. *)
Lemma C7_image_example_witness :
  engine_const (Return mapid_example) (Call_imageToMapId (PStr "X") visParams_example)
  = Return mapid_example /\
  run (image (engine_const (Return mapid_example)) (json_request (PDict image_payload)))
  = (Return {| body := mapid_example; status := 200 |},
     [Invoke (Call_imageToMapId (PStr "X") visParams_example)]).
Proof.
  split; [reflexivity|].
  exact (C7_image_example (engine_const (Return mapid_example)) mapid_example eq_refl).
Defined.



(** [/timeSeriesIndex2] with the scale ["coarse"], and with the scale ["30"]. *)
Lemma C10_scale_coercion_witness :
  is_timeseries_route Route_timeSeriesIndex2 = true /\
  float_value parse_30 (dict_get unscaled_timeseries_payload "scale" (PInt 30))
  = Raise ValueError /\
  (is_GEEException ValueError = false /\
   run (route (engine_const (Return (PList []))) parse_30 Route_timeSeriesIndex2
          (json_request (PDict unscaled_timeseries_payload)))
   = (Raise ValueError, [])) /\
  Invoke (Call_getTimeSeriesByIndex (PStr "NDVI") (PFloat 30%float) square)
    ∈ trace (route (engine_const (Return (PList []))) parse_30 Route_timeSeriesIndex2
               (json_request (PDict suffixed_timeseries_payload))) /\
  exists f,
    float_value parse_30 (dict_get suffixed_timeseries_payload "scale" (PInt 30))
    = Return (PFloat f) /\
    call_scale (Call_getTimeSeriesByIndex (PStr "NDVI") (PFloat 30%float) square)
    = Some (PFloat f).
Proof.
  assert (Hs : float_value parse_30 (dict_get unscaled_timeseries_payload "scale" (PInt 30))
               = Raise ValueError) by (vm_compute; reflexivity).
  assert (Hin : Invoke (Call_getTimeSeriesByIndex (PStr "NDVI") (PFloat 30%float) square)
    ∈ trace (route (engine_const (Return (PList []))) parse_30 Route_timeSeriesIndex2
               (json_request (PDict suffixed_timeseries_payload))))
    by (vm_compute; constructor).
  split; [reflexivity|]. split; [exact Hs|]. split; [|split; [exact Hin|]].
  - exact (proj2 (C10_scale_coercion (engine_const (Return (PList []))) parse_30
                    Route_timeSeriesIndex2 unscaled_timeseries_payload eq_refl)
             ValueError Hs).
  - exact (proj1 (C10_scale_coercion (engine_const (Return (PList []))) parse_30
                    Route_timeSeriesIndex2 suffixed_timeseries_payload eq_refl)
             _ Hin).
Defined.

(** * Further properties of the handlers *)

Section Handlers.

Variable engine : call -> result pyval.
Variable float_of_str : string -> option float.

(** Every run of a handler has one of five shapes. *)
Lemma run_shapes (ep : endpoint) (req : request) :
  (exists v, run (route engine float_of_str ep req) = (Return {| body := v; status := 200 |}, []))
  \/ (exists e, is_GEEException e = false /\ run (route engine float_of_str ep req) = (Raise e, []))
  \/ (exists msg, run (route engine float_of_str ep req)
                 = (Return {| body := errMsg_dict msg; status := 200 |}, [LogError msg]))
  \/ (exists c v, run (route engine float_of_str ep req)
                 = (Return {| body := v; status := 200 |}, [Invoke c]))
  \/ (exists c e, is_GEEException e = false /\
                 run (route engine float_of_str ep req) = (Raise e, [Invoke c]))
  \/ (exists c msg, run (route engine float_of_str ep req)
                   = (Return {| body := errMsg_dict msg; status := 200 |},
                      [Invoke c; LogError msg])).
Proof.
  rewrite handle_run.
  destruct (get_json req) as [json|e].
  - destruct (prepare float_of_str ep json) as [a|e].
    + rewrite perform_run. destruct a as [|c|c].
      * left. eexists. reflexivity.
      * destruct (engine c) as [v|e].
        -- do 3 right. left. do 2 eexists. reflexivity.
        -- destruct e; simpl;
             try (do 4 right; left; do 2 eexists; split; [|reflexivity]; reflexivity).
           do 5 right. do 2 eexists. reflexivity.
      * destruct (engine c) as [v|e].
        -- do 3 right. left. do 2 eexists. reflexivity.
        -- destruct e; simpl;
             try (do 4 right; left; do 2 eexists; split; [|reflexivity]; reflexivity).
           do 5 right. do 2 eexists. reflexivity.
    + destruct e; simpl; try (right; left; eexists; split; [|reflexivity]; reflexivity).
      do 2 right. left. eexists. reflexivity.
  - destruct e; simpl; try (right; left; eexists; split; [|reflexivity]; reflexivity).
    do 2 right. left. eexists. reflexivity.
Qed.

(** X1.  A handler calls the engine at most once per request, and the
    call, when there is one, is the first event of the run. *)
Theorem at_most_one_engine_call (ep : endpoint) (req : request) :
  engine_calls (trace (route engine float_of_str ep req)) = []
  \/ exists c, engine_calls (trace (route engine float_of_str ep req)) = [c]
               /\ head (trace (route engine float_of_str ep req)) = Some (Invoke c).
Proof.
  unfold trace.
  destruct (run_shapes ep req)
    as [[v ->]|[(e & _ & ->)|[[msg ->]|[(c & v & ->)|[(c & e & _ & ->)|(c & msg & ->)]]]]];
    simpl; eauto.
Qed.

(** X2.  The error log is written only by the [except] clause: a logged
    message is the message of the response [{"errMsg": msg}], status
    200, and it is the last event and the only line logged. *)
Theorem logged_only_with_error_body (ep : endpoint) (req : request) (msg : string) :
  LogError msg ∈ trace (route engine float_of_str ep req) ->
  exists tr,
    run (route engine float_of_str ep req)
    = (Return {| body := errMsg_dict msg; status := 200 |}, (tr ++ [LogError msg])%list)
    /\ forall msg', LogError msg' ∉ tr.
Proof.
  unfold trace.
  destruct (run_shapes ep req)
    as [[v ->]|[(e & _ & ->)|[[m ->]|[(c & v & ->)|[(c & e & _ & ->)|(c & m & ->)]]]]];
    simpl; intros Hin.
  - inversion Hin.
  - inversion Hin.
  - apply list_elem_of_singleton in Hin. injection Hin as ->.
    exists []. split; [reflexivity|]. intros m' H. inversion H.
  - apply list_elem_of_singleton in Hin. discriminate.
  - apply list_elem_of_singleton in Hin. discriminate.
  - apply elem_of_cons in Hin as [Hin|Hin]; [discriminate|].
    apply list_elem_of_singleton in Hin. injection Hin as ->.
    exists [Invoke c]. split; [reflexivity|].
    intros m' H. apply list_elem_of_singleton in H. discriminate.
Qed.

Lemma prepare_call_route (ep : endpoint) (json : pyval) (a : action) (c : call) :
  prepare float_of_str ep json = Return a -> action_call a = Some c ->
  call_route c = ep.
Proof.
  unfold prepare. destruct (_ && _); [intros [= <-]; discriminate|].
  destruct json as [| | | | | |d]; try discriminate.
  destruct (guard ep d); [|intros [= <-]; discriminate].
  destruct ep; simpl; unfold with_scale;
    try destruct (float_value _ _); try discriminate;
    intros [= <-] [= <-]; reflexivity.
Qed.

(** X3.  Each handler calls its own operation of the engine and no
    other: [image] calls [imageToMapId], [imageByMosaicCollection]
    calls [firstImageInMosaicToMapId], [timeSeriesIndex] calls
    [getTimeSeriesByCollectionAndIndex], [timeSeriesIndex2] calls
    [getTimeSeriesByIndex] and [getStats] calls [getStatistics]. *)
Theorem handler_calls_own_operation (ep : endpoint) (req : request) (c : call) :
  Invoke c ∈ trace (route engine float_of_str ep req) -> call_route c = ep.
Proof.
  intros Hin. apply invoked_inv in Hin as (json & a & _ & Ha & Hc & _).
  exact (prepare_call_route ep json a c Ha Hc).
Qed.

(** X4.  A handler never ends with a [GEEException], and every response
    it returns has status 200. *)
Theorem never_raises_GEEException (ep : endpoint) (req : request) :
  match outcome (route engine float_of_str ep req) with
  | Return resp => status resp = 200
  | Raise e => is_GEEException e = false
  end.
Proof.
  unfold outcome.
  destruct (run_shapes ep req)
    as [[v ->]|[(e & He & ->)|[[m ->]|[(c & v & ->)|[(c & e & He & ->)|(c & m & ->)]]]]];
    simpl; first [reflexivity | exact He].
Qed.

(** X5.  On the four handlers that test the payload, a payload that is
    empty in the sense of [if json:] ([None] when the request has no
    JSON body, [{}], [[]], the empty string, [0], [false]) is answered
    [{}] with status 200, and the engine is not called. *)
Theorem falsy_payload_noop (ep : endpoint) (json : pyval) :
  ep <> Route_getStats ->
  truthy json = false ->
  run (route engine float_of_str ep (json_request json))
  = (Return {| body := empty_dict; status := 200 |}, []).
Proof.
  intros Hep Hj. rewrite handle_run. simpl get_json. cbv iota.
  unfold prepare. rewrite Hj.
  destruct ep; try congruence; reflexivity.
Qed.

(** X6.  A payload that is not a JSON object and reaches the first
    [json.get] makes the handler end with an [AttributeError], which is
    not caught; no call is made.  The four handlers with [if json:]
    reach it on a non-empty payload, [getStats] on every payload, the
    absent body included. *)
Theorem non_object_payload_raises (ep : endpoint) (json : pyval) :
  is_object json = false ->
  truthy json = true \/ ep = Route_getStats ->
  run (route engine float_of_str ep (json_request json)) = (Raise AttributeError, []).
Proof.
  intros Hobj Hreach. rewrite handle_run. simpl get_json. cbv iota.
  unfold prepare.
  assert (Hskip : tests_payload ep && negb (truthy json) = false).
  { destruct Hreach as [->| ->]; [apply andb_false_r | reflexivity]. }
  rewrite Hskip. destruct json; try discriminate; reflexivity.
Qed.

Lemma dict_get_agree (d1 d2 : gmap string pyval) (key : string) (dflt : pyval) :
  d1 !! key = d2 !! key -> dict_get d1 key dflt = dict_get d2 key dflt.
Proof. unfold dict_get. intros ->. reflexivity. Qed.

Lemma guard_call_agree (ep : endpoint) (d1 d2 : gmap string pyval) :
  Forall (fun key => d1 !! key = d2 !! key) (fields_read ep) ->
  guard ep d1 = guard ep d2 /\ call_of float_of_str ep d1 = call_of float_of_str ep d2.
Proof.
  intros H. unfold guard, call_of, with_scale, geometry_of.
  destruct ep; simpl in H; repeat (apply Forall_cons in H as [? H]);
    repeat match goal with
           | E : d1 !! ?k = d2 !! ?k |- _ =>
               rewrite !(dict_get_agree d1 d2 k _ E); clear E
           end;
    split; reflexivity.
Qed.

(** X7.  The run of a handler on an object payload depends only on the
    fields that the handler reads: two payloads that agree on these
    fields get the same call of the engine and the same response,
    whatever else they hold. *)
Theorem run_depends_on_fields_read (ep : endpoint) (d1 d2 : gmap string pyval) :
  Forall (fun key => d1 !! key = d2 !! key) (fields_read ep) ->
  run (route engine float_of_str ep (json_request (PDict d1))) = run (route engine float_of_str ep (json_request (PDict d2))).
Proof.
  intros H. rewrite !handle_dict_run.
  destruct (guard_call_agree ep d1 d2 H) as [-> ->]. reflexivity.
Qed.

(** X8.  The defaults of the time-series handlers apply to an absent
    key only.  An [indexName] that is present is passed to the engine
    as it is, [null] included; a [scale] that is present and [null]
    makes a request that passes the guard end with a [TypeError]. *)
Theorem present_field_not_defaulted (ep : endpoint) (d : gmap string pyval) :
  is_timeseries_route ep = true ->
  (forall c v, Invoke c ∈ trace (route engine float_of_str ep (json_request (PDict d))) ->
               d !! "indexName" = Some v -> call_indexName c = Some v) /\
  (guard ep d = true -> d !! "scale" = Some PNone ->
   run (route engine float_of_str ep (json_request (PDict d))) = (Raise TypeError, [])).
Proof.
  intros Hep. split.
  - intros c v Hin Hv.
    destruct (timeseries_call_inv engine float_of_str ep d c Hep Hin) as (Hi & _).
    rewrite Hi, (dict_get_present _ _ _ _ Hv). reflexivity.
  - intros Hg Hs. rewrite handle_dict_run, Hg.
    destruct ep; try discriminate; simpl; unfold with_scale;
      rewrite (dict_get_present _ _ _ _ Hs); reflexivity.
Qed.

(** X9.  [image], on an object payload with a non-empty [imageName]:
    one call [imageToMapId(imageName, visParams)], with [None] for an
    absent [visParams]; the value returned is the body, unchanged, a
    [GEEException] becomes the [errMsg] body, another exception
    propagates. *)
Theorem image_forwards_and_relays (d : gmap string pyval) (imageName : pyval) :
  d !! "imageName" = Some imageName ->
  truthy imageName = true ->
  run (route engine float_of_str Route_image (json_request (PDict d)))
  = settle (engine (Call_imageToMapId imageName (dict_get d "visParams" PNone)),
            [Invoke (Call_imageToMapId imageName (dict_get d "visParams" PNone))]).
Proof.
  intros Hn Ht. rewrite handle_dict_run. unfold guard, call_of.
  rewrite (dict_get_present _ _ _ _ Hn), Ht, perform_run. reflexivity.
Qed.

(** X10.  [imageByMosaicCollection], on an object payload with a
    non-empty [collectionName]: one call
    [firstImageInMosaicToMapId(collectionName, visParams, dateFrom, dateTo)],
    with [None] for each absent field; the value returned is the body,
    unchanged. *)
Theorem imageByMosaicCollection_forwards_and_relays
    (d : gmap string pyval) (collectionName : pyval) :
  d !! "collectionName" = Some collectionName ->
  truthy collectionName = true ->
  run (route engine float_of_str Route_imageByMosaicCollection (json_request (PDict d)))
  = settle (engine (Call_firstImageInMosaicToMapId collectionName
                      (dict_get d "visParams" PNone)
                      (dict_get d "dateFrom" PNone) (dict_get d "dateTo" PNone)),
            [Invoke (Call_firstImageInMosaicToMapId collectionName
                       (dict_get d "visParams" PNone)
                       (dict_get d "dateFrom" PNone) (dict_get d "dateTo" PNone))]).
Proof.
  intros Hn Ht. rewrite handle_dict_run. unfold guard, call_of.
  rewrite (dict_get_present _ _ _ _ Hn), Ht, perform_run. reflexivity.
Qed.

(** X11.  [timeSeriesIndex], on an object payload with a non-empty
    [collectionNameTimeSeries], a non-empty geometry and a [scale] that
    coerces to a float: one call of [getTimeSeriesByCollectionAndIndex]
    with the collection, the index name, the float, the geometry and
    the dates read from [dateFromTimeSeries] and [dateToTimeSeries]; the
    value returned is placed under the single key [timeseries]. *)
Theorem timeSeriesIndex_forwards_and_wraps
    (d : gmap string pyval) (collectionName scale : pyval) :
  d !! "collectionNameTimeSeries" = Some collectionName ->
  truthy collectionName = true ->
  truthy (geometry_of d) = true ->
  float_value float_of_str (dict_get d "scale" (PInt 30)) = Return scale ->
  run (route engine float_of_str Route_timeSeriesIndex (json_request (PDict d)))
  = settle (match engine (Call_getTimeSeriesByCollectionAndIndex collectionName
                            (dict_get d "indexName" (PStr "NDVI")) scale (geometry_of d)
                            (dict_get d "dateFromTimeSeries" PNone)
                            (dict_get d "dateToTimeSeries" PNone)) with
            | Return timeseries => Return (PDict {[ "timeseries" := timeseries ]})
            | Raise e => Raise e
            end,
            [Invoke (Call_getTimeSeriesByCollectionAndIndex collectionName
                       (dict_get d "indexName" (PStr "NDVI")) scale (geometry_of d)
                       (dict_get d "dateFromTimeSeries" PNone)
                       (dict_get d "dateToTimeSeries" PNone))]).
Proof.
  intros Hn Ht Hg Hs. rewrite handle_dict_run. unfold guard, call_of, with_scale.
  rewrite (dict_get_present _ _ _ _ Hn), Ht, Hg, Hs. simpl andb. cbv iota.
  rewrite perform_run. reflexivity.
Qed.

(** X12.  [timeSeriesIndex2], on an object payload with a non-empty
    geometry and a [scale] that coerces to a float: one call
    [getTimeSeriesByIndex(indexName, scale, geometry)]; the value
    returned is placed under the single key [timeseries].  No
    collection name is needed. *)
Theorem timeSeriesIndex2_forwards_and_wraps (d : gmap string pyval) (scale : pyval) :
  truthy (geometry_of d) = true ->
  float_value float_of_str (dict_get d "scale" (PInt 30)) = Return scale ->
  run (route engine float_of_str Route_timeSeriesIndex2 (json_request (PDict d)))
  = settle (match engine (Call_getTimeSeriesByIndex
                            (dict_get d "indexName" (PStr "NDVI")) scale (geometry_of d)) with
            | Return timeseries => Return (PDict {[ "timeseries" := timeseries ]})
            | Raise e => Raise e
            end,
            [Invoke (Call_getTimeSeriesByIndex
                       (dict_get d "indexName" (PStr "NDVI")) scale (geometry_of d))]).
Proof.
  intros Hg Hs. rewrite handle_dict_run. unfold guard, call_of, with_scale.
  rewrite Hg, Hs. cbv iota. rewrite perform_run. reflexivity.
Qed.

(** X13.  [getStats], on every object payload, the empty one included:
    one call [getStatistics(paramType, paramValue)], with [None] for an
    absent field and an empty [paramType] passed as it is; the value
    returned is the body, unchanged. *)
Theorem getStats_forwards_and_relays (d : gmap string pyval) :
  run (route engine float_of_str Route_getStats (json_request (PDict d)))
  = settle (engine (Call_getStatistics (dict_get d "paramType" PNone)
                      (dict_get d "paramValue" PNone)),
            [Invoke (Call_getStatistics (dict_get d "paramType" PNone)
                       (dict_get d "paramValue" PNone))]).
Proof.
  rewrite handle_dict_run. unfold guard, call_of. rewrite perform_run. reflexivity.
Qed.

(** X14.  The two time-series handlers read the index name, the scale
    and the geometry in the same way: on a payload for which
    [timeSeriesIndex] calls the engine, [timeSeriesIndex2] calls it too,
    with the same [indexName], [scale] and [geometry]. *)
Theorem timeseries_handlers_agree (d : gmap string pyval) (c1 : call) :
  Invoke c1 ∈ trace (route engine float_of_str Route_timeSeriesIndex
                       (json_request (PDict d))) ->
  exists c2,
    Invoke c2 ∈ trace (route engine float_of_str Route_timeSeriesIndex2
                         (json_request (PDict d))) /\
    call_indexName c2 = call_indexName c1 /\
    call_scale c2 = call_scale c1 /\
    call_geometry c2 = call_geometry c1.
Proof.
  intros Hin.
  destruct (timeseries_call_inv engine float_of_str Route_timeSeriesIndex d c1 eq_refl Hin)
    as (Hi & Hgeo & scale & Hs & Hsc).
  apply invoked_dict_inv in Hin as (Hg & _).
  simpl in Hg. apply andb_true_iff in Hg as [_ Hg].
  exists (Call_getTimeSeriesByIndex
            (dict_get d "indexName" (PStr "NDVI")) scale (geometry_of d)).
  split.
  - apply (guarded_call_invoked engine float_of_str Route_timeSeriesIndex2 d
             (Timeseries (Call_getTimeSeriesByIndex
                            (dict_get d "indexName" (PStr "NDVI")) scale (geometry_of d))));
      [exact Hg | simpl; unfold with_scale; rewrite Hs; reflexivity | reflexivity].
  - rewrite Hi, Hsc, Hgeo. repeat split; reflexivity.
Qed.

End Handlers.

(** [/getStats] when the engine raises [GEEException("bad polygon")]. *)
Lemma logged_only_with_error_body_witness :
  LogError "bad polygon"
    ∈ trace (route (engine_const (Raise (GEEException "bad polygon"))) parse_30
               Route_getStats (json_request (PDict stats_payload))) /\
  exists tr,
    run (route (engine_const (Raise (GEEException "bad polygon"))) parse_30
           Route_getStats (json_request (PDict stats_payload)))
    = (Return {| body := errMsg_dict "bad polygon"; status := 200 |},
       (tr ++ [LogError "bad polygon"])%list)
    /\ forall msg', LogError msg' ∉ tr.
Proof.
  assert (Hin : LogError "bad polygon"
    ∈ trace (route (engine_const (Raise (GEEException "bad polygon"))) parse_30
               Route_getStats (json_request (PDict stats_payload))))
    by (vm_compute; right; left).
  split; [exact Hin|].
  exact (logged_only_with_error_body _ parse_30 Route_getStats _ "bad polygon" Hin).
Defined.

(** The call made by [/imageByMosaicCollection]. *)
Lemma handler_calls_own_operation_witness :
  Invoke (Call_firstImageInMosaicToMapId
            (PStr "LANDSAT/LC8_L1T_TOA") PNone (PStr "2015-01-01") PNone)
    ∈ trace (route (engine_const (Return mapid_example)) parse_30
               Route_imageByMosaicCollection (json_request (PDict mosaic_payload))) /\
  call_route (Call_firstImageInMosaicToMapId
                (PStr "LANDSAT/LC8_L1T_TOA") PNone (PStr "2015-01-01") PNone)
  = Route_imageByMosaicCollection.
Proof.
  assert (Hin : Invoke (Call_firstImageInMosaicToMapId
            (PStr "LANDSAT/LC8_L1T_TOA") PNone (PStr "2015-01-01") PNone)
    ∈ trace (route (engine_const (Return mapid_example)) parse_30
               Route_imageByMosaicCollection (json_request (PDict mosaic_payload))))
    by (vm_compute; left).
  split; [exact Hin|].
  exact (handler_calls_own_operation (engine_const (Return mapid_example)) parse_30
           Route_imageByMosaicCollection (json_request (PDict mosaic_payload)) _ Hin).
Defined.

(** [/timeSeriesIndex] on a request without a JSON body. *)
Lemma falsy_payload_noop_witness :
  Route_timeSeriesIndex <> Route_getStats /\
  truthy PNone = false /\
  run (route (engine_const (Return (PList []))) parse_30 Route_timeSeriesIndex
         (json_request PNone))
  = (Return {| body := empty_dict; status := 200 |}, []).
Proof.
  assert (Hne : Route_timeSeriesIndex <> Route_getStats) by discriminate.
  split; [exact Hne|]. split; [reflexivity|].
  exact (falsy_payload_noop (engine_const (Return (PList []))) parse_30
           Route_timeSeriesIndex PNone Hne eq_refl).
Defined.

(** [/image] on the array [[1]], and [/getStats] without a JSON body. *)
Lemma non_object_payload_raises_witness :
  (is_object (PList [PInt 1]) = false /\
   truthy (PList [PInt 1]) = true /\
   run (route (engine_const (Return mapid_example)) parse_30 Route_image
          (json_request (PList [PInt 1])))
   = (Raise AttributeError, [])) /\
  (is_object PNone = false /\
   run (route (engine_const (Return stats_example)) parse_30 Route_getStats
          (json_request PNone))
   = (Raise AttributeError, [])).
Proof.
  split.
  - split; [reflexivity|]. split; [reflexivity|].
    exact (non_object_payload_raises (engine_const (Return mapid_example)) parse_30
             Route_image (PList [PInt 1]) eq_refl (or_introl eq_refl)).
  - split; [reflexivity|].
    exact (non_object_payload_raises (engine_const (Return stats_example)) parse_30
             Route_getStats PNone eq_refl (or_intror eq_refl)).
Defined.

(** The image request with and without a field that is not read. *)
Lemma run_depends_on_fields_read_witness :
  Forall (fun key => image_payload_with_note !! key = image_payload !! key)
    (fields_read Route_image) /\
  run (route (engine_const (Return mapid_example)) parse_30 Route_image
         (json_request (PDict image_payload_with_note)))
  = run (route (engine_const (Return mapid_example)) parse_30 Route_image
           (json_request (PDict image_payload))).
Proof.
  assert (H : Forall (fun key => image_payload_with_note !! key = image_payload !! key)
                (fields_read Route_image))
    by (repeat constructor).
  split; [exact H|].
  exact (run_depends_on_fields_read (engine_const (Return mapid_example)) parse_30
           Route_image image_payload_with_note image_payload H).
Defined.

(** [/timeSeriesIndex2] with [indexName] and with [scale] set to [null]. *)
Lemma present_field_not_defaulted_witness :
  is_timeseries_route Route_timeSeriesIndex2 = true /\
  (Invoke (Call_getTimeSeriesByIndex PNone (PFloat 30%float) square)
     ∈ trace (route (engine_const (Return (PList []))) parse_30 Route_timeSeriesIndex2
                (json_request (PDict null_index_payload))) /\
   null_index_payload !! "indexName" = Some PNone /\
   call_indexName (Call_getTimeSeriesByIndex PNone (PFloat 30%float) square) = Some PNone) /\
  (guard Route_timeSeriesIndex2 null_scale_payload = true /\
   null_scale_payload !! "scale" = Some PNone /\
   run (route (engine_const (Return (PList []))) parse_30 Route_timeSeriesIndex2
          (json_request (PDict null_scale_payload)))
   = (Raise TypeError, [])).
Proof.
  assert (Hin : Invoke (Call_getTimeSeriesByIndex PNone (PFloat 30%float) square)
     ∈ trace (route (engine_const (Return (PList []))) parse_30 Route_timeSeriesIndex2
                (json_request (PDict null_index_payload))))
    by (vm_compute; left).
  assert (Hi : null_index_payload !! "indexName" = Some PNone) by (vm_compute; reflexivity).
  assert (Hg : guard Route_timeSeriesIndex2 null_scale_payload = true)
    by (vm_compute; reflexivity).
  assert (Hs : null_scale_payload !! "scale" = Some PNone) by (vm_compute; reflexivity).
  split; [reflexivity|]. split.
  - split; [exact Hin|]. split; [exact Hi|].
    exact (proj1 (present_field_not_defaulted (engine_const (Return (PList []))) parse_30
                    Route_timeSeriesIndex2 null_index_payload eq_refl) _ _ Hin Hi).
  - split; [exact Hg|]. split; [exact Hs|].
    exact (proj2 (present_field_not_defaulted (engine_const (Return (PList []))) parse_30
                    Route_timeSeriesIndex2 null_scale_payload eq_refl) Hg Hs).
Defined.

(** [/image] on [{"imageName": "X", "visParams": {...}}]. *)
Lemma image_forwards_and_relays_witness :
  image_payload !! "imageName" = Some (PStr "X") /\
  truthy (PStr "X") = true /\
  run (route (engine_const (Return mapid_example)) parse_30 Route_image
         (json_request (PDict image_payload)))
  = settle (engine_const (Return mapid_example)
              (Call_imageToMapId (PStr "X") (dict_get image_payload "visParams" PNone)),
            [Invoke (Call_imageToMapId (PStr "X")
                       (dict_get image_payload "visParams" PNone))]).
Proof.
  assert (Hn : image_payload !! "imageName" = Some (PStr "X")) by (vm_compute; reflexivity).
  split; [exact Hn|]. split; [reflexivity|].
  exact (image_forwards_and_relays (engine_const (Return mapid_example)) parse_30
           image_payload (PStr "X") Hn eq_refl).
Defined.

(** [/imageByMosaicCollection] on a payload without [visParams] and [dateTo]. *)
Lemma imageByMosaicCollection_forwards_and_relays_witness :
  mosaic_payload !! "collectionName" = Some (PStr "LANDSAT/LC8_L1T_TOA") /\
  truthy (PStr "LANDSAT/LC8_L1T_TOA") = true /\
  run (route (engine_const (Return mapid_example)) parse_30 Route_imageByMosaicCollection
         (json_request (PDict mosaic_payload)))
  = (Return {| body := mapid_example; status := 200 |},
     [Invoke (Call_firstImageInMosaicToMapId
                (PStr "LANDSAT/LC8_L1T_TOA") PNone (PStr "2015-01-01") PNone)]).
Proof.
  assert (Hn : mosaic_payload !! "collectionName" = Some (PStr "LANDSAT/LC8_L1T_TOA"))
    by (vm_compute; reflexivity).
  split; [exact Hn|]. split; [reflexivity|].
  exact (imageByMosaicCollection_forwards_and_relays
           (engine_const (Return mapid_example)) parse_30
           mosaic_payload (PStr "LANDSAT/LC8_L1T_TOA") Hn eq_refl).
Defined.

(** [/timeSeriesIndex] on the request with the suffixed keys. *)
Lemma timeSeriesIndex_forwards_and_wraps_witness :
  suffixed_timeseries_payload !! "collectionNameTimeSeries"
  = Some (PStr "LANDSAT/LC8_L1T_TOA") /\
  truthy (PStr "LANDSAT/LC8_L1T_TOA") = true /\
  truthy (geometry_of suffixed_timeseries_payload) = true /\
  float_value parse_30 (dict_get suffixed_timeseries_payload "scale" (PInt 30))
  = Return (PFloat 30%float) /\
  run (route (engine_const (Return (PList []))) parse_30 Route_timeSeriesIndex
         (json_request (PDict suffixed_timeseries_payload)))
  = (Return {| body := PDict {[ "timeseries" := PList [] ]}; status := 200 |},
     [Invoke (Call_getTimeSeriesByCollectionAndIndex
                (PStr "LANDSAT/LC8_L1T_TOA") (PStr "NDVI") (PFloat 30%float) square
                (PStr "2015-01-01") (PStr "2015-12-31"))]).
Proof.
  assert (Hn : suffixed_timeseries_payload !! "collectionNameTimeSeries"
               = Some (PStr "LANDSAT/LC8_L1T_TOA")) by (vm_compute; reflexivity).
  assert (Hg : truthy (geometry_of suffixed_timeseries_payload) = true)
    by (vm_compute; reflexivity).
  assert (Hs : float_value parse_30 (dict_get suffixed_timeseries_payload "scale" (PInt 30))
               = Return (PFloat 30%float)) by (vm_compute; reflexivity).
  split; [exact Hn|]. split; [reflexivity|]. split; [exact Hg|]. split; [exact Hs|].
  exact (timeSeriesIndex_forwards_and_wraps (engine_const (Return (PList []))) parse_30
           suffixed_timeseries_payload _ _ Hn eq_refl Hg Hs).
Defined.

(** [/timeSeriesIndex2] on a payload with a polygon only. *)
Lemma timeSeriesIndex2_forwards_and_wraps_witness :
  truthy (geometry_of null_index_payload) = true /\
  float_value parse_30 (dict_get null_index_payload "scale" (PInt 30))
  = Return (PFloat 30%float) /\
  run (route (engine_const (Raise (GEEException "no data"))) parse_30 Route_timeSeriesIndex2
         (json_request (PDict null_index_payload)))
  = (Return {| body := errMsg_dict "no data"; status := 200 |},
     [Invoke (Call_getTimeSeriesByIndex PNone (PFloat 30%float) square);
      LogError "no data"]).
Proof.
  assert (Hg : truthy (geometry_of null_index_payload) = true) by (vm_compute; reflexivity).
  assert (Hs : float_value parse_30 (dict_get null_index_payload "scale" (PInt 30))
               = Return (PFloat 30%float)) by (vm_compute; reflexivity).
  split; [exact Hg|]. split; [exact Hs|].
  exact (timeSeriesIndex2_forwards_and_wraps
           (engine_const (Raise (GEEException "no data"))) parse_30
           null_index_payload _ Hg Hs).
Defined.

(** The request with the suffixed keys, sent to both time-series handlers. *)
Lemma timeseries_handlers_agree_witness :
  Invoke (Call_getTimeSeriesByCollectionAndIndex
            (PStr "LANDSAT/LC8_L1T_TOA") (PStr "NDVI") (PFloat 30%float) square
            (PStr "2015-01-01") (PStr "2015-12-31"))
    ∈ trace (route (engine_const (Return (PList []))) parse_30 Route_timeSeriesIndex
               (json_request (PDict suffixed_timeseries_payload))) /\
  exists c2,
    Invoke c2 ∈ trace (route (engine_const (Return (PList []))) parse_30
                         Route_timeSeriesIndex2
                         (json_request (PDict suffixed_timeseries_payload))) /\
    call_indexName c2 = Some (PStr "NDVI") /\
    call_scale c2 = Some (PFloat 30%float) /\
    call_geometry c2 = Some square.
Proof.
  assert (Hin : Invoke (Call_getTimeSeriesByCollectionAndIndex
            (PStr "LANDSAT/LC8_L1T_TOA") (PStr "NDVI") (PFloat 30%float) square
            (PStr "2015-01-01") (PStr "2015-12-31"))
    ∈ trace (route (engine_const (Return (PList []))) parse_30 Route_timeSeriesIndex
               (json_request (PDict suffixed_timeseries_payload))))
    by (vm_compute; left).
  split; [exact Hin|].
  exact (timeseries_handlers_agree (engine_const (Return (PList []))) parse_30
           suffixed_timeseries_payload _ Hin).
Defined.
